(** * TorchscriptHook

    A shallow embedding of [classy_vision/hooks/torchscript_hook.py]: the
    hook that converts a task's model into TorchScript when a run ends and
    stores it in a folder.

    The Python methods become actions of a small state-and-exception monad
    over a [World] that holds what the hook can observe or change: the
    mode flags of the model and of autograd, the storage backend, the hook
    object itself, and a chronological journal of the calls made to the
    logger, to torch and to the path manager. *)

From stdpp Require Import base strings gmap list.
From Stdlib Require Import ZArith.

Open Scope string_scope.
Open Scope list_scope.

(** ** Python values, exceptions and results *)

(** The values that reach the hook untyped: constructor arguments and the
    optional attributes of a model. *)
Inductive PyVal : Type :=
| PyNone
| PyBool (b : bool)
| PyInt (z : Z)
| PyStr (s : string)
| PyTuple (items : list Z).

(** Python truth value testing ([if not input_shape]). *)
Definition truthy (v : PyVal) : bool :=
  match v with
  | PyNone => false
  | PyBool b => b
  | PyInt z => negb (Z.eqb z 0)
  | PyStr s => match s with EmptyString => false | String _ _ => true end
  | PyTuple items => match items with [] => false | _ :: _ => true end
  end.

(** [isinstance(v, str)]. *)
Definition isinstance_str (v : PyVal) : bool :=
  match v with PyStr _ => true | _ => false end.

(** Exceptions. The first three are raised by the hook's own statements;
    [ForeignError] stands for whatever torch or the path manager raise. *)
Inductive exn : Type :=
| AssertionError (msg : string)
| FileNotFoundError (msg : string)
| AttributeError (msg : string)
| ForeignError (origin msg : string).

Inductive outcome (A : Type) : Type :=
| Returned (a : A)
| Raised (e : exn).
Arguments Returned {A} a.
Arguments Raised {A} e.

(** ** The hook object, models and tasks *)

(** The four attributes [__init__] assigns on [self]. *)
Record TorchscriptHook : Type := mkHook {
  torchscript_folder : string;
  use_trace : bool;
  trace_strict : bool;
  device : string
}.

(** A model as the hook sees it: two attributes that may be missing
    ([None] is [hasattr(model, ...) = False]) and the network itself,
    opaque here. Its training flag is mutable and lives in the [World]. *)
Record Model : Type := mkModel {
  input_shape : option PyVal;
  input_key : option PyVal;
  net : nat
}.

Record Task : Type := mkTask { base_model : Model }.

Definition TORCHSCRIPT_FILE : string := "torchscript.pt".

Inductive LogLevel : Type := INFO | WARNING.

Section Hook.

(** Tensors handed to the tracer and the TorchScript modules it returns
    are torch objects; nothing here looks inside them. *)
Context {Input Program : Type}.

(** An entry of the storage backend. A file opened for writing is empty
    ([File None]) until the serializer has written a program to it. *)
Inductive Node : Type :=
| Dir
| File (content : option Program).

(** Calls leaving the hook, in the order they are made. [ETrace] and
    [EScript] also record the model's training flag and the autograd flag
    at the moment of the call. *)
Inductive Event : Type :=
| ELog (level : LogLevel) (msg : string)
| EExists (path : string)
| EDummyInput (shape key : PyVal)
| ETrace (model_training grad : bool) (input_data : Input) (strict : bool)
| EScript (model_training grad : bool)
| EOpen (path mode : string)
| ESave (program : Program) (path : string)
| EClose (path : string).

Record World : Type := mkWorld {
  training : bool;
  grad_enabled : bool;
  storage : gmap string Node;
  hook : TorchscriptHook;
  journal : list Event
}.

(** What the hook imports. [get_model_dummy_input] is a helper of this
    repository (classy_vision.generic.util) that is not among the sources
    and is taken as given, like [is_primary]; the others are torch and
    iopath. The builder of the dummy input, the tracer, the scripter, the
    move to a device, the open and the save can each raise. The tracer
    and the scripter see the modes they run under, the path manager and
    the serializer see the storage. [module_to] is [torchscript.to]: a
    method of the program, not entered in the journal. *)
Record Collaborators : Type := mkCollaborators {
  is_primary : bool;
  get_model_dummy_input : Model -> PyVal -> PyVal -> outcome Input;
  jit_trace : bool -> bool -> Model -> Input -> bool -> outcome Program;
  jit_script : bool -> bool -> Model -> outcome Program;
  module_to : Program -> string -> outcome Program;
  pathmgr_open : gmap string Node -> string -> string -> option exn;
  jit_save : gmap string Node -> Program -> string -> option exn
}.

Variable env : Collaborators.

(** ** State and exceptions *)

Definition M (A : Type) : Type := World -> outcome A * World.

Definition ret {A} (a : A) : M A := fun w => (Returned a, w).

Definition raise {A} (e : exn) : M A := fun w => (Raised e, w).

Definition bind {A B} (m : M A) (k : A -> M B) : M B :=
  fun w =>
    match m w with
    | (Returned a, w') => k a w'
    | (Raised e, w') => (Raised e, w')
    end.

Notation "'let*' x ':=' m 'in' k" := (bind m (fun x => k))
  (at level 10, x name, m at level 100, k at level 200).

Definition record (e : Event) (w : World) : World :=
  mkWorld (training w) (grad_enabled w) (storage w) (hook w) (journal w ++ [e]).

Definition set_training (b : bool) (w : World) : World :=
  mkWorld b (grad_enabled w) (storage w) (hook w) (journal w).

Definition set_grad_enabled (b : bool) (w : World) : World :=
  mkWorld (training w) b (storage w) (hook w) (journal w).

Definition set_storage (s : gmap string Node) (w : World) : World :=
  mkWorld (training w) (grad_enabled w) s (hook w) (journal w).

(** [self.<field>]. *)
Definition attr {A} (field : TorchscriptHook -> A) : M A :=
  fun w => (Returned (field (hook w)), w).

Definition emit (e : Event) : M unit := fun w => (Returned tt, record e w).

Definition logging_warning (msg : string) : M unit := emit (ELog WARNING msg).

Definition logging_info (msg : string) : M unit := emit (ELog INFO msg).

(** ** Context managers and the [with] statement *)

(** An object with [__enter__] and [__exit__]; [S] is what [__enter__]
    stores for [__exit__]. None of the managers used here swallows an
    exception, so [__exit__] only restores. *)
Record ContextManager (S : Type) : Type := mkCM {
  cm_truthy : bool;
  cm_enter : World -> S * World;
  cm_exit : S -> World -> World
}.
Arguments cm_truthy {S} _.
Arguments cm_enter {S} _ _.
Arguments cm_exit {S} _ _ _.

(** Python's [a and b] on two objects: [a] when it is falsy, else [b]. *)
Definition py_and {S} (a b : ContextManager S) : ContextManager S :=
  if cm_truthy a then b else a.

(** [with cm: body]: enter, run the body, exit on every path, and let an
    exception of the body through. *)
Definition with_ {S A} (cm : ContextManager S) (body : M A) : M A :=
  fun w =>
    let '(saved, w1) := cm_enter cm w in
    let '(r, w2) := body w1 in
    (r, cm_exit cm saved w2).

(** Modelled from the spec: [eval_model] of classy_vision.generic.util is
    not among the sources. The spec has it put the model into evaluation
    mode for the duration of a scope and restore the previous mode
    afterwards. It is a context manager object, which Python counts as
    true, and building it does nothing until it is entered. *)
Definition eval_model (model : Model) : ContextManager bool :=
  mkCM bool true
    (fun w => (training w, set_training false w))
    (fun prev w => set_training prev w).

(** [torch.no_grad()]: disables gradient tracking on entry and restores
    the previous setting on exit. *)
Definition no_grad : ContextManager bool :=
  mkCM bool true
    (fun w => (grad_enabled w, set_grad_enabled false w))
    (fun prev w => set_grad_enabled prev w).

(** The handle returned by [g_pathmgr.open], used as a context manager:
    leaving the scope closes it. *)
Definition file_handle (f : string) : ContextManager unit :=
  mkCM unit true (fun w => (tt, w)) (fun _ w => record (EClose f) w).

(** ** Calls to the collaborators *)

Definition call_get_model_dummy_input (model : Model) (shape key : PyVal)
  : M Input :=
  fun w => (get_model_dummy_input env model shape key,
            record (EDummyInput shape key) w).

Definition call_jit_trace (model : Model) (input_data : Input) (strict : bool)
  : M Program :=
  fun w => (jit_trace env (training w) (grad_enabled w) model input_data strict,
            record (ETrace (training w) (grad_enabled w) input_data strict) w).

Definition call_jit_script (model : Model) : M Program :=
  fun w => (jit_script env (training w) (grad_enabled w) model,
            record (EScript (training w) (grad_enabled w)) w).

(** [program.to(dev)]. *)
Definition call_module_to (program : Program) (dev : string) : M Program :=
  fun w => (module_to env program dev, w).

(** [g_pathmgr.exists(path)]. *)
Definition pathmgr_exists (path : string) : M bool :=
  fun w => (Returned (bool_decide (is_Some (storage w !! path))),
            record (EExists path) w).

(** [g_pathmgr.open(path, mode)] for a write mode: on success the file
    exists and is empty, and the handle is returned. *)
Definition call_pathmgr_open (path mode : string) : M string :=
  fun w =>
    let w' := record (EOpen path mode) w in
    match pathmgr_open env (storage w) path mode with
    | Some e => (Raised e, w')
    | None => (Returned path, set_storage (<[path := File None]> (storage w)) w')
    end.

(** [torch.jit.save(program, f)]. *)
Definition call_jit_save (program : Program) (f : string) : M unit :=
  fun w =>
    let w' := record (ESave program f) w in
    match jit_save env (storage w) program f with
    | Some e => (Raised e, w')
    | None =>
        (Returned tt, set_storage (<[f := File (Some program)]> (storage w)) w')
    end.

(** ** The methods of the hook *)

Definition folder_type_msg : string :=
  "torchscript_folder must be a string specifying the torchscript directory".

(** The constructor. An argument left out is [None] here and takes the
    default of the signature. The constructor of the base class, called
    first, is not among the sources; it gets none of these arguments. *)
Definition __init__ (folder : PyVal) (use_trace_arg trace_strict_arg : option bool)
    (device_arg : option string) : outcome TorchscriptHook :=
  match folder with
  | PyStr s =>
      Returned (mkHook s (default true use_trace_arg)
                  (default true trace_strict_arg) (default "cpu" device_arg))
  | _ => Raised (AssertionError folder_type_msg)
  end.

Definition no_input_shape_msg : string :=
  "This model doesn't implement input_shape.Cannot save torchscripted model.".

(** [model.input_shape if hasattr(model, "input_shape") else None], and
    the same for [input_key]. *)
Definition attr_or_none (a : option PyVal) : PyVal := default PyNone a.

Definition torchscript_using_trace (model : Model) : M (option Program) :=
  let shape := attr_or_none (input_shape model) in
  if negb (truthy shape) then
    let* _ := logging_warning no_input_shape_msg in
    ret None
  else
    let* input_data :=
      call_get_model_dummy_input model shape (attr_or_none (input_key model)) in
    let* torchscript :=
      with_ (py_and (eval_model model) no_grad)
        (let* strict := attr trace_strict in
         call_jit_trace model input_data strict) in
    ret (Some torchscript).

Definition torchscript_using_script (model : Model) : M (option Program) :=
  let* torchscript :=
    with_ (py_and (eval_model model) no_grad) (call_jit_script model) in
  ret (Some torchscript).

Definition saving_msg (folder : string) : string :=
  "Saving torchscript to '" +:+ folder +:+ "'...".

Definition none_to_msg : string := "'NoneType' object has no attribute 'to'".

Definition torchscript_name (folder : string) : string :=
  folder +:+ "/" +:+ TORCHSCRIPT_FILE.

Definition save_torchscript (task : Task) : M unit :=
  let model := base_model task in
  let* tracing := attr use_trace in
  let* torchscript :=
    (if tracing : bool then torchscript_using_trace model
     else torchscript_using_script model) in
  let* folder := attr torchscript_folder in
  let* _ := logging_info (saving_msg folder) in
  let* dev := attr device in
  let* torchscript :=
    match torchscript with
    | Some program => call_module_to program dev
    | None => raise (AttributeError none_to_msg)
    end in
  let* folder := attr torchscript_folder in
  let* f := call_pathmgr_open (torchscript_name folder) "wb" in
  with_ (file_handle f) (call_jit_save torchscript f).

Definition missing_folder_msg (folder : string) : string :=
  "Torchscript folder '" +:+ folder +:+ "' does not exist.".

Definition on_start (task : Task) : M unit :=
  if negb (is_primary env) then ret tt
  else
    let* folder := attr torchscript_folder in
    let* found := pathmgr_exists folder in
    if negb found then
      let* folder := attr torchscript_folder in
      raise (FileNotFoundError (missing_folder_msg folder))
    else ret tt.

Definition on_end (task : Task) : M unit :=
  if negb (is_primary env) then ret tt
  else save_torchscript task.

(** Modelled from the spec: [ClassyHook._noop] is not among the sources;
    the spec has phase start, phase end and step do nothing for this hook. *)
Definition ClassyHook_noop (task : Task) : M unit := ret tt.

Definition on_phase_start : Task -> M unit := ClassyHook_noop.

Definition on_phase_end : Task -> M unit := ClassyHook_noop.

Definition on_step : Task -> M unit := ClassyHook_noop.

End Hook.

Arguments Node : clear implicits.
Arguments Event : clear implicits.
Arguments World : clear implicits.
Arguments Collaborators : clear implicits.
Arguments M : clear implicits.
Arguments cm_truthy {Input Program S} _.
Arguments cm_enter {Input Program S} _ _.
Arguments cm_exit {Input Program S} _ _ _.

(** ** Reading a journal *)

(** The calls made between two worlds of one run. *)
Definition since {Input Program} (w w' : World Input Program)
  : list (Event Input Program) :=
  drop (length (journal w)) (journal w').

Definition is_trace_call {Input Program} (e : Event Input Program) : bool :=
  match e with ETrace _ _ _ _ => true | _ => false end.

Definition is_dummy_input_call {Input Program} (e : Event Input Program)
  : bool :=
  match e with EDummyInput _ _ => true | _ => false end.

(** Calls that reach the storage backend. *)
Definition is_storage_call {Input Program} (e : Event Input Program) : bool :=
  match e with
  | EExists _ | EOpen _ _ | ESave _ _ | EClose _ => true
  | _ => false
  end.

(** The same model with other introspection attributes. *)
Definition with_attributes (model : Model) (shape key : option PyVal) : Model :=
  mkModel shape key (net model).

(** ** A small concrete setting

    Inputs are the (shape, key) pair they were built from and programs are
    a network number with the device they sit on. *)

Definition DemoInput : Type := PyVal * PyVal.

Definition DemoProgram : Type := nat * string.

Definition shape_error : exn :=
  ForeignError "get_model_dummy_input" "cannot build a tensor of this shape".

Definition device_error : exn :=
  ForeignError "torch.jit.ScriptModule.to" "invalid device string".

(** The builder of this setting wants a tuple of sizes none of which is
    negative and raises on any other shape. *)
Definition demo_dummy_input (model : Model) (shape key : PyVal)
  : outcome DemoInput :=
  match shape with
  | PyTuple sizes =>
      if forallb (fun z => Z.leb 0 z) sizes then Returned (shape, key)
      else Raised shape_error
  | _ => Raised shape_error
  end.

(** Its devices are "cpu" and whatever starts with "cuda". *)
Definition demo_to (p : DemoProgram) (dev : string) : outcome DemoProgram :=
  if String.eqb dev "cpu" || String.prefix "cuda" dev
  then Returned (p.1, dev)
  else Raised device_error.

Definition demo_env (primary : bool)
    (tracer scripter : outcome DemoProgram) (open_error save_error : option exn)
  : Collaborators DemoInput DemoProgram :=
  mkCollaborators primary
    demo_dummy_input
    (fun _ _ _ _ _ => tracer)
    (fun _ _ _ => scripter)
    demo_to
    (fun _ _ _ => open_error)
    (fun _ _ _ => save_error).

(** Every collaborator works, on the primary process. *)
Definition primary_env : Collaborators DemoInput DemoProgram :=
  demo_env true (Returned (7, "cuda:0")) (Returned (7, "cuda:0")) None None.

(** The same on another process of the run. *)
Definition replica_env : Collaborators DemoInput DemoProgram :=
  demo_env false (Returned (7, "cuda:0")) (Returned (7, "cuda:0")) None None.

(** One collaborator fails, the others work. *)
Definition tracer_error : exn := ForeignError "torch.jit.trace" "unsupported op".

Definition scripter_error : exn :=
  ForeignError "torch.jit.script" "unsupported syntax".

Definition open_error : exn := ForeignError "g_pathmgr.open" "permission denied".

Definition save_error : exn := ForeignError "torch.jit.save" "no space left".

Definition tracer_fails_env : Collaborators DemoInput DemoProgram :=
  demo_env true (Raised tracer_error) (Returned (7, "cuda:0")) None None.

Definition scripter_fails_env : Collaborators DemoInput DemoProgram :=
  demo_env true (Returned (7, "cuda:0")) (Raised scripter_error) None None.

Definition open_fails_env : Collaborators DemoInput DemoProgram :=
  demo_env true (Returned (7, "cuda:0")) (Returned (7, "cuda:0"))
    (Some open_error) None.

Definition save_fails_env : Collaborators DemoInput DemoProgram :=
  demo_env true (Returned (7, "cuda:0")) (Returned (7, "cuda:0"))
    None (Some save_error).

Definition demo_hook (tracing : bool) : TorchscriptHook :=
  mkHook "/out" tracing true "cpu".

(** A model in training mode, gradients on, the folder present or not. *)
Definition demo_world (tracing folder_exists : bool)
  : World DemoInput DemoProgram :=
  mkWorld true true
    (if folder_exists then {["/out" := Dir]} else ∅)
    (demo_hook tracing) [].

Definition image_model : Model :=
  mkModel (Some (PyTuple [3; 224; 224]%Z)) None 7.

Definition shapeless_model : Model := mkModel None None 7.

Definition empty_shape_model : Model := mkModel (Some (PyTuple [])) None 7.

(** A shape that counts as true and that the builder refuses. *)
Definition negative_shape_model : Model :=
  mkModel (Some (PyTuple [-1; 3]%Z)) None 7.

(** The scripting hook with a device that does not exist. *)
Definition bogus_device_world : World DemoInput DemoProgram :=
  mkWorld true true {["/out" := Dir]} (mkHook "/out" false true "bogus") [].

(** ** Views used in the statements and proofs *)

(** The world after further calls that left modes, storage and hook as
    they were. *)
Definition extend {Input Program} (w : World Input Program)
    (evs : list (Event Input Program)) : World Input Program :=
  mkWorld (training w) (grad_enabled w) (storage w) (hook w) (journal w ++ evs).

Definition is_returned {A} (r : outcome A) : bool :=
  match r with Returned _ => true | Raised _ => false end.

Definition outcome_map {A B} (f : A -> B) (r : outcome A) : outcome B :=
  match r with
  | Returned a => Returned (f a)
  | Raised e => Raised e
  end.

(** What [save_torchscript] does once the program (or [None]) has been
    obtained: lines 93 to 98 of the source, as a world transformer. *)
Definition persist {Input Program} (env : Collaborators Input Program)
    (torchscript : option Program) (w : World Input Program)
  : outcome unit * World Input Program :=
  let folder := torchscript_folder (hook w) in
  let path := torchscript_name folder in
  let said := ELog INFO (saving_msg folder) in
  match torchscript with
  | None => (Raised (AttributeError none_to_msg), extend w [said])
  | Some program =>
      match module_to env program (device (hook w)) with
      | Raised e => (Raised e, extend w [said])
      | Returned moved =>
          match pathmgr_open env (storage w) path "wb" with
          | Some e => (Raised e, extend w [said; EOpen path "wb"])
          | None =>
              let calls :=
                [said; EOpen path "wb"; ESave moved path; EClose path] in
              match
                jit_save env (<[path := File None]> (storage w)) moved path
              with
              | Some e =>
                  (Raised e,
                   set_storage (<[path := File None]> (storage w))
                     (extend w calls))
              | None =>
                  (Returned tt,
                   set_storage (<[path := File (Some moved)]> (storage w))
                     (extend w calls))
              end
          end
      end
  end.

(** What the export expression of [save_torchscript] (lines 87 to 91)
    returns and which calls it makes, read off the modes and the hook. *)
Definition export_result {Input Program} (env : Collaborators Input Program)
    (model : Model) (w : World Input Program) : outcome (option Program) :=
  let shape := attr_or_none (input_shape model) in
  let key := attr_or_none (input_key model) in
  if use_trace (hook w) then
    if truthy shape then
      match get_model_dummy_input env model shape key with
      | Returned input_data =>
          outcome_map Some
            (jit_trace env (training w) false model input_data
               (trace_strict (hook w)))
      | Raised e => Raised e
      end
    else Returned None
  else outcome_map Some (jit_script env (training w) false model).

Definition export_calls {Input Program} (env : Collaborators Input Program)
    (model : Model) (w : World Input Program) : list (Event Input Program) :=
  let shape := attr_or_none (input_shape model) in
  let key := attr_or_none (input_key model) in
  if use_trace (hook w) then
    if truthy shape then
      match get_model_dummy_input env model shape key with
      | Returned input_data =>
          [EDummyInput shape key;
           ETrace (training w) false input_data (trace_strict (hook w))]
      | Raised _ => [EDummyInput shape key]
      end
    else [ELog WARNING no_input_shape_msg]
  else [EScript (training w) false].

(** ** Counting calls and changing the configuration *)

Definition is_script_call {Input Program} (e : Event Input Program) : bool :=
  match e with EScript _ _ => true | _ => false end.

Definition is_exists_call {Input Program} (e : Event Input Program) : bool :=
  match e with EExists _ => true | _ => false end.

Definition is_open_call {Input Program} (e : Event Input Program) : bool :=
  match e with EOpen _ _ => true | _ => false end.

Definition is_save_call {Input Program} (e : Event Input Program) : bool :=
  match e with ESave _ _ => true | _ => false end.

Definition count_calls {Input Program} (p : Event Input Program -> bool)
    (evs : list (Event Input Program)) : nat :=
  length (List.filter p evs).

(** The same world with another hook object in it. *)
Definition set_hook {Input Program} (h : TorchscriptHook)
    (w : World Input Program) : World Input Program :=
  mkWorld (training w) (grad_enabled w) (storage w) h (journal w).

(** * Properties *)

Section Properties.

Context {Input Program : Type}.
Variable env : Collaborators Input Program.
Implicit Types (w : World Input Program) (task : Task) (model : Model).

Lemma since_app w w' evs :
  journal w' = journal w ++ evs -> since w w' = evs.
Proof. intros H. unfold since. rewrite H. apply drop_app_length. Qed.

Lemma since_record w e : since w (record e w) = [e].
Proof. apply since_app. reflexivity. Qed.

(** C3: on a process that is not the primary one, [on_start] and [on_end]
    return at once and leave the world as it was: nothing is asked of the
    storage backend, nothing is opened or written, no exception is raised,
    whatever the hook's configuration, the model or the storage hold. *)
Theorem replica_does_nothing task w :
  is_primary env = false ->
  on_start env task w = (Returned tt, w) /\
  on_end env task w = (Returned tt, w) /\
  since w (on_start env task w).2 = [] /\
  since w (on_end env task w).2 = [].
Proof.
  intros Hrank. unfold on_start, on_end. rewrite Hrank. cbn.
  unfold since. rewrite drop_all. repeat split; reflexivity.
Qed.

(** The message of the error raised by [on_start] carries the folder. *)
Lemma missing_folder_msg_names_folder folder :
  exists pre suf, missing_folder_msg folder = pre +:+ folder +:+ suf.
Proof.
  exists "Torchscript folder '", "' does not exist.". reflexivity.
Qed.

(** C4: on the primary process [on_start] asks the storage backend whether
    the configured folder exists. If it does not, FileNotFoundError is
    raised with a message that contains the folder; if it does, the call
    returns. In both cases the storage is left as it was. *)
Theorem on_start_checks_folder task w :
  is_primary env = true ->
  let folder := torchscript_folder (hook w) in
  let w' := record (EExists folder) w in
  (storage w !! folder = None ->
   on_start env task w =
     (Raised (FileNotFoundError (missing_folder_msg folder)), w')) /\
  (is_Some (storage w !! folder) ->
   on_start env task w = (Returned tt, w')) /\
  (exists pre suf, missing_folder_msg folder = pre +:+ folder +:+ suf) /\
  storage w' = storage w /\
  since w w' = [EExists folder].
Proof.
  intros Hrank folder w'. unfold on_start. rewrite Hrank. cbn.
  unfold bind, attr, pathmgr_exists. cbn. fold folder. fold w'.
  repeat split.
  - intros Hnone. rewrite bool_decide_eq_false_2; [reflexivity |].
    rewrite Hnone. apply is_Some_None.
  - intros Hsome. rewrite bool_decide_eq_true_2; [reflexivity | exact Hsome].
  - apply missing_folder_msg_names_folder.
  - apply since_record.
Qed.

(** ** The two export helpers and the storing step *)

(** Brings nested world updates to a record with explicit fields. *)
Ltac worlds :=
  unfold ret, raise, extend, record, set_grad_enabled, set_training,
    set_storage; cbn.

Lemma extend_extend w evs evs' :
  extend (extend w evs) evs' = extend w (evs ++ evs').
Proof. unfold extend. cbn. rewrite <- app_assoc. reflexivity. Qed.

Lemma since_extend w evs : since w (extend w evs) = evs.
Proof. apply since_app. reflexivity. Qed.

(** The header [with eval_model(model) and torch.no_grad():] enters
    [torch.no_grad()] only: the [and] of two objects is the second one
    when the first counts as true. *)
Lemma with_eval_model_and_no_grad {A} model (body : M Input Program A) w :
  with_ (py_and (eval_model model) no_grad) body w = with_ no_grad body w.
Proof. reflexivity. Qed.

(** Whatever the truth value of the first object, a header [with a and b:]
    enters one manager only. *)
Lemma with_and_enters_one {S A} (a b : ContextManager S)
    (body : M Input Program A) w :
  with_ (py_and a b) body w = with_ a body w \/
  with_ (py_and a b) body w = with_ b body w.
Proof. unfold py_and. destruct (cm_truthy a); [right | left]; reflexivity. Qed.

Lemma torchscript_using_trace_falsy model w :
  truthy (attr_or_none (input_shape model)) = false ->
  torchscript_using_trace env model w =
    (Returned None, extend w [ELog WARNING no_input_shape_msg]).
Proof.
  intros Hshape. unfold torchscript_using_trace. rewrite Hshape. reflexivity.
Qed.

Lemma torchscript_using_trace_truthy model w input_data :
  let shape := attr_or_none (input_shape model) in
  let key := attr_or_none (input_key model) in
  let strict := trace_strict (hook w) in
  truthy shape = true ->
  get_model_dummy_input env model shape key = Returned input_data ->
  torchscript_using_trace env model w =
    (outcome_map Some (jit_trace env (training w) false model input_data strict),
     extend w [EDummyInput shape key;
               ETrace (training w) false input_data strict]).
Proof.
  intros shape key strict Hshape Hinput.
  unfold torchscript_using_trace. fold shape. rewrite Hshape. cbn.
  unfold bind, call_get_model_dummy_input, with_. cbn.
  fold key. rewrite Hinput. cbn. fold strict.
  destruct (jit_trace env (training w) false model input_data strict);
    cbn; worlds; rewrite <- app_assoc; reflexivity.
Qed.

(** A builder that raises ends the helper before anything is traced. *)
Lemma torchscript_using_trace_refused model w e :
  let shape := attr_or_none (input_shape model) in
  let key := attr_or_none (input_key model) in
  truthy shape = true ->
  get_model_dummy_input env model shape key = Raised e ->
  torchscript_using_trace env model w =
    (Raised e, extend w [EDummyInput shape key]).
Proof.
  intros shape key Hshape Hinput.
  unfold torchscript_using_trace. fold shape. rewrite Hshape. cbn.
  unfold bind, call_get_model_dummy_input. cbn.
  fold key. rewrite Hinput. reflexivity.
Qed.

Lemma torchscript_using_script_runs model w :
  torchscript_using_script env model w =
    (outcome_map Some (jit_script env (training w) false model),
     extend w [EScript (training w) false]).
Proof.
  unfold torchscript_using_script, bind, with_. cbn.
  destruct (jit_script env (training w) false model); cbn; worlds;
    reflexivity.
Qed.

(** [save_torchscript] is the chosen export helper followed by [persist]. *)
Lemma save_torchscript_steps task w :
  save_torchscript env task w =
    match (if use_trace (hook w)
           then torchscript_using_trace env (base_model task) w
           else torchscript_using_script env (base_model task) w) with
    | (Returned torchscript, w1) => persist env torchscript w1
    | (Raised e, w1) => (Raised e, w1)
    end.
Proof.
  unfold save_torchscript. unfold bind at 1. unfold attr at 1. cbv beta iota.
  unfold bind at 1.
  destruct (use_trace (hook w));
    [destruct (torchscript_using_trace env (base_model task) w)
       as [[torchscript | e] w1]
    |destruct (torchscript_using_script env (base_model task) w)
       as [[torchscript | e] w1]];
    try reflexivity.
  all: unfold persist, bind, attr, logging_info, emit, call_pathmgr_open,
    call_module_to, with_;
    cbn; destruct torchscript as [program |]; cbn; [| reflexivity].
  all: destruct (module_to env program (device (hook w1))); cbn;
    [| reflexivity].
  all: destruct (pathmgr_open env (storage w1) _ "wb"); cbn;
    [worlds; rewrite <- app_assoc; reflexivity |].
  all: unfold call_jit_save; cbn; destruct (jit_save env _ _ _); cbn; worlds;
    rewrite <- !app_assoc; cbn; [reflexivity |].
  all: rewrite insert_insert_eq; reflexivity.
Qed.

Lemma on_end_primary task w :
  is_primary env = true -> on_end env task w = save_torchscript env task w.
Proof. intros Hrank. unfold on_end. rewrite Hrank. reflexivity. Qed.

Lemma export_steps model w :
  (if use_trace (hook w) then torchscript_using_trace env model w
   else torchscript_using_script env model w) =
    (export_result env model w, extend w (export_calls env model w)).
Proof.
  unfold export_result, export_calls.
  destruct (use_trace (hook w)); [| apply torchscript_using_script_runs].
  destruct (truthy (attr_or_none (input_shape model))) eqn:Hshape.
  - destruct (get_model_dummy_input env model _ _) as [input_data | e]
      eqn:Hinput.
    + apply torchscript_using_trace_truthy; [exact Hshape | exact Hinput].
    + apply torchscript_using_trace_refused; [exact Hshape | exact Hinput].
  - apply torchscript_using_trace_falsy. exact Hshape.
Qed.

Lemma on_end_primary_steps task w :
  is_primary env = true ->
  on_end env task w =
    match export_result env (base_model task) w with
    | Returned torchscript =>
        persist env torchscript (extend w (export_calls env (base_model task) w))
    | Raised e => (Raised e, extend w (export_calls env (base_model task) w))
    end.
Proof.
  intros Hrank.
  rewrite (on_end_primary task w Hrank), save_torchscript_steps, export_steps.
  reflexivity.
Qed.

(** The export depends on the world through the model's mode and the
    hook only. *)
Lemma export_result_frame model w w1 :
  training w1 = training w -> hook w1 = hook w ->
  export_result env model w1 = export_result env model w.
Proof. intros Ht Hh. unfold export_result. rewrite Ht, Hh. reflexivity. Qed.

Lemma export_calls_frame model w w1 :
  training w1 = training w -> hook w1 = hook w ->
  export_calls env model w1 = export_calls env model w.
Proof. intros Ht Hh. unfold export_calls. rewrite Ht, Hh. reflexivity. Qed.

Lemma persist_keeps_hook torchscript w :
  hook (persist env torchscript w).2 = hook w.
Proof.
  unfold persist. destruct torchscript as [program |]; [| reflexivity].
  destruct (module_to env _ _); [| reflexivity].
  destruct (pathmgr_open env _ _ _); [reflexivity |].
  destruct (jit_save env _ _ _); reflexivity.
Qed.

(** ** Construction *)

(** C8: [__init__] fails exactly when the folder argument is not a string,
    and then with the assertion's message. For every string, the empty one
    included, it succeeds and stores the four values as given, nothing else
    being checked; arguments left out take the defaults [True], [True] and
    ["cpu"]. *)
Theorem init_accepts_exactly_strings
    (folder : PyVal) (tracing strict : option bool) (dev : option string) :
  ((exists e, __init__ folder tracing strict dev = Raised e) <->
   isinstance_str folder = false) /\
  (isinstance_str folder = false ->
   __init__ folder tracing strict dev = Raised (AssertionError folder_type_msg)) /\
  (forall s (t r : bool) (d : string),
     __init__ (PyStr s) (Some t) (Some r) (Some d) = Returned (mkHook s t r d)) /\
  (forall s, __init__ (PyStr s) None None None = Returned (mkHook s true true "cpu")) /\
  (forall s,
     __init__ (PyStr s) tracing strict dev =
       Returned (mkHook s (default true tracing) (default true strict)
                   (default "cpu" dev))) /\
  __init__ (PyStr "") tracing strict dev =
    Returned (mkHook "" (default true tracing) (default true strict)
                (default "cpu" dev)).
Proof.
  repeat split; try reflexivity.
  - intros [e He]. destruct folder; cbn in *; congruence.
  - intros Hstr. destruct folder; cbn in *; try congruence; eauto.
  - intros Hstr. destruct folder; cbn in *; congruence.
Qed.

(** ** The trace helper *)

(** C10, amended: [torchscript_using_trace] calls the builder of the
    dummy input exactly when the model has an [input_shape] that counts as
    true, and the tracer exactly when, in addition, the builder returns:
    an exception of the builder leaves the helper before the tracer is
    called. An attribute that is there but falsy (an empty shape, [None])
    is handled as a missing one: a warning and [None], no other call. *)
Theorem trace_helper_needs_truthy_shape model w :
  let shape := attr_or_none (input_shape model) in
  let key := attr_or_none (input_key model) in
  let built := get_model_dummy_input env model shape key in
  let w' := (torchscript_using_trace env model w).2 in
  existsb is_dummy_input_call (since w w') = truthy shape /\
  existsb is_trace_call (since w w') = truthy shape && is_returned built /\
  (truthy shape = false ->
   torchscript_using_trace env model w =
     (Returned None, extend w [ELog WARNING no_input_shape_msg])) /\
  (forall v, input_shape model = Some v -> truthy v = false ->
   torchscript_using_trace env model w =
     torchscript_using_trace env
       (with_attributes model None (input_key model)) w) /\
  (forall e, truthy shape = true -> built = Raised e ->
   torchscript_using_trace env model w =
     (Raised e, extend w [EDummyInput shape key])).
Proof.
  intros shape key built w'. subst w'.
  destruct (truthy shape) eqn:Hshape; [| subst built].
  - assert (Hnot : forall v, input_shape model = Some v -> truthy v = false ->
                     False).
    { intros v Hv Hfalsy. unfold shape in Hshape. rewrite Hv in Hshape.
      cbn in Hshape. congruence. }
    subst built.
    destruct (get_model_dummy_input env model shape key)
      as [input_data | e] eqn:Hbuilt.
    + rewrite (torchscript_using_trace_truthy model w input_data Hshape Hbuilt).
      cbn [snd]. rewrite since_extend.
      split; [reflexivity |]. split; [reflexivity |]. split; [discriminate |].
      split; [| discriminate].
      intros v Hv Hfalsy. destruct (Hnot v Hv Hfalsy).
    + rewrite (torchscript_using_trace_refused model w e Hshape Hbuilt).
      cbn [snd]. rewrite since_extend.
      split; [reflexivity |]. split; [reflexivity |]. split; [discriminate |].
      split; [| intros e' _ He'; injection He' as <-; reflexivity].
      intros v Hv Hfalsy. destruct (Hnot v Hv Hfalsy).
  - rewrite (torchscript_using_trace_falsy model w Hshape). cbn [snd].
    rewrite since_extend.
    split; [reflexivity |]. split; [reflexivity |]. split; [reflexivity |].
    split; [| discriminate].
    intros v Hv Hfalsy. symmetry. apply torchscript_using_trace_falsy.
    reflexivity.
Qed.

(** ** Running the export *)

(** C1, as the code has it: with [use_trace] set and a model without a
    truthy [input_shape], [on_end] on the primary process logs the warning,
    gets [None] from the trace helper, logs that it is saving, and then
    raises AttributeError on [torchscript.to(self.device)]. Nothing is
    asked of the storage backend and the storage does not change. *)
Theorem on_end_without_input_shape task w :
  is_primary env = true ->
  use_trace (hook w) = true ->
  truthy (attr_or_none (input_shape (base_model task))) = false ->
  let w' :=
    extend w [ELog WARNING no_input_shape_msg;
              ELog INFO (saving_msg (torchscript_folder (hook w)))] in
  on_end env task w = (Raised (AttributeError none_to_msg), w') /\
  storage w' = storage w /\
  existsb is_storage_call (since w w') = false.
Proof.
  intros Hrank Htracing Hshape w'. subst w'.
  rewrite (on_end_primary task w Hrank), save_torchscript_steps, Htracing.
  rewrite (torchscript_using_trace_falsy _ w Hshape). cbn.
  rewrite extend_extend, since_extend. repeat split; reflexivity.
Qed.

(** C2, as the code has it: under both strategies the tracer or scripter
    runs with gradient tracking off and with the model in whatever mode it
    was in, because the [with] header enters [torch.no_grad()] alone and
    never [eval_model(model)]. After the helper returns or raises, both
    flags are what they were before. *)
Theorem export_keeps_training_mode model w :
  (forall A (body : M Input Program A),
     with_ (py_and (eval_model model) no_grad) body w = with_ no_grad body w) /\
  since w (torchscript_using_script env model w).2 =
    [EScript (training w) false] /\
  since w (torchscript_using_trace env model w).2 =
    (let shape := attr_or_none (input_shape model) in
     let key := attr_or_none (input_key model) in
     if truthy shape
     then match get_model_dummy_input env model shape key with
          | Returned input_data =>
              [EDummyInput shape key;
               ETrace (training w) false input_data (trace_strict (hook w))]
          | Raised _ => [EDummyInput shape key]
          end
     else [ELog WARNING no_input_shape_msg]) /\
  training (torchscript_using_script env model w).2 = training w /\
  grad_enabled (torchscript_using_script env model w).2 = grad_enabled w /\
  training (torchscript_using_trace env model w).2 = training w /\
  grad_enabled (torchscript_using_trace env model w).2 = grad_enabled w.
Proof.
  split; [intros A body; apply with_eval_model_and_no_grad |].
  rewrite torchscript_using_script_runs. cbn. rewrite since_extend.
  destruct (truthy (attr_or_none (input_shape model))) eqn:Hshape.
  - destruct (get_model_dummy_input env model _ _) as [input_data | e]
      eqn:Hbuilt.
    + rewrite (torchscript_using_trace_truthy model w input_data Hshape Hbuilt).
      cbn. rewrite since_extend. repeat split; reflexivity.
    + rewrite (torchscript_using_trace_refused model w e Hshape Hbuilt).
      cbn. rewrite since_extend. repeat split; reflexivity.
  - rewrite (torchscript_using_trace_falsy model w Hshape). cbn.
    rewrite since_extend. repeat split; reflexivity.
Qed.

(** C5: with [use_trace] set and a model whose [input_shape] counts as
    true, [on_end] on the primary process builds one dummy input from the
    shape and from [input_key] when the model has one ([None] otherwise),
    calls the tracer on it with [strict] equal to [trace_strict], moves the
    traced program to the configured device, opens
    [<folder>/torchscript.pt] in mode ["wb"] and saves the moved program
    there. That path is the only entry of the storage that changes. This
    is the run in which every call returns: the builder of the dummy
    input, the tracer, the move to the device, the open and the save. *)
Theorem on_end_traces_and_writes task w input_data program moved :
  let model := base_model task in
  let h := hook w in
  let shape := attr_or_none (input_shape model) in
  let key := attr_or_none (input_key model) in
  let path := torchscript_name (torchscript_folder h) in
  let w' :=
    set_storage (<[path := File (Some moved)]> (storage w))
      (extend w [EDummyInput shape key;
                 ETrace (training w) false input_data (trace_strict h);
                 ELog INFO (saving_msg (torchscript_folder h));
                 EOpen path "wb"; ESave moved path; EClose path]) in
  is_primary env = true ->
  use_trace h = true ->
  truthy shape = true ->
  get_model_dummy_input env model shape key = Returned input_data ->
  jit_trace env (training w) false model input_data (trace_strict h) =
    Returned program ->
  module_to env program (device h) = Returned moved ->
  pathmgr_open env (storage w) path "wb" = None ->
  jit_save env (<[path := File None]> (storage w)) moved path = None ->
  on_end env task w = (Returned tt, w') /\
  path = torchscript_folder h +:+ "/torchscript.pt" /\
  storage w' !! path = Some (File (Some moved)) /\
  (forall other, other <> path -> storage w' !! other = storage w !! other).
Proof.
  intros model h shape key path w'
    Hrank Htracing Hshape Hbuilt Htrace Hmoved Hopen Hsave.
  split; [| split; [reflexivity | split]].
  - rewrite (on_end_primary_steps task w Hrank).
    unfold export_result, export_calls.
    fold model h shape key. rewrite Htracing, Hshape, Hbuilt, Htrace.
    unfold persist. cbn. fold h path. rewrite Hmoved, Hopen, Hsave.
    worlds. rewrite <- app_assoc. reflexivity.
  - cbn. apply lookup_insert_eq.
  - intros other Hother. cbn. apply lookup_insert_ne. congruence.
Qed.

(** C6: with [use_trace] off the export is the scripter's answer for the
    model and nothing else: [input_shape] and [input_key] are never read,
    no dummy input is built, no warning is logged. A model the scripter
    accepts yields its program, and [save_torchscript] does the same for
    that model under any other introspection attributes. *)
Theorem script_export_ignores_introspection task w shape key program :
  let model := base_model task in
  let other := with_attributes model shape key in
  use_trace (hook w) = false ->
  jit_script env (training w) false model = Returned program ->
  jit_script env (training w) false other = Returned program ->
  torchscript_using_script env model w =
    (Returned (Some program), extend w [EScript (training w) false]) /\
  torchscript_using_script env other w =
    torchscript_using_script env model w /\
  save_torchscript env (mkTask other) w = save_torchscript env task w /\
  save_torchscript env task w =
    persist env (Some program) (extend w [EScript (training w) false]) /\
  existsb is_dummy_input_call (since w (save_torchscript env task w).2) = false.
Proof.
  intros model other Hscripting Hmodel Hother.
  assert (Hexport : torchscript_using_script env model w =
            (Returned (Some program), extend w [EScript (training w) false])).
  { rewrite torchscript_using_script_runs, Hmodel. reflexivity. }
  assert (Hsame : torchscript_using_script env other w =
            torchscript_using_script env model w).
  { rewrite !torchscript_using_script_runs, Hmodel, Hother. reflexivity. }
  assert (Hsave : save_torchscript env task w =
            persist env (Some program) (extend w [EScript (training w) false])).
  { rewrite save_torchscript_steps, Hscripting. fold model.
    rewrite Hexport. reflexivity. }
  split; [exact Hexport |]. split; [exact Hsame |]. split; [| split].
  - rewrite !save_torchscript_steps, Hscripting. cbn [base_model].
    fold model. rewrite Hsame. reflexivity.
  - exact Hsave.
  - rewrite Hsave. unfold persist. cbn.
    destruct (module_to env _ _); cbn;
      [| rewrite extend_extend, since_extend; reflexivity].
    destruct (pathmgr_open env _ _ _); cbn;
      [rewrite extend_extend, since_extend; reflexivity |].
    destruct (jit_save env _ _ _); cbn; unfold since; cbn;
      rewrite <- app_assoc, drop_app_length; reflexivity.
Qed.

(** C7: [on_end] catches nothing. An exception of the tracer or of the
    scripter comes out of [on_end] as it is, no call to the storage backend
    having been made and the storage unchanged. Once a program has been
    exported and moved to the device, an exception of [g_pathmgr.open]
    comes out as it is, with no handle to close; an exception of
    [torch.jit.save] comes out as it is after the handle has been closed;
    and on success the handle is closed too. No call is made twice. The
    same holds for the two calls the claim does not name: an exception of
    the builder of the dummy input or of the move to the device comes out
    as it is, before anything is opened. *)
Theorem on_end_propagates_errors task w :
  is_primary env = true ->
  let model := base_model task in
  let h := hook w in
  let shape := attr_or_none (input_shape model) in
  let key := attr_or_none (input_key model) in
  let path := torchscript_name (torchscript_folder h) in
  let said := ELog INFO (saving_msg (torchscript_folder h)) in
  (forall e input_data,
     use_trace h = true -> truthy shape = true ->
     get_model_dummy_input env model shape key = Returned input_data ->
     jit_trace env (training w) false model input_data (trace_strict h) =
       Raised e ->
     on_end env task w =
       (Raised e,
        extend w [EDummyInput shape key;
                  ETrace (training w) false input_data (trace_strict h)])) /\
  (forall e,
     use_trace h = false ->
     jit_script env (training w) false model = Raised e ->
     on_end env task w = (Raised e, extend w [EScript (training w) false])) /\
  (forall program evs moved,
     (if use_trace h then torchscript_using_trace env model w
      else torchscript_using_script env model w) =
       (Returned (Some program), extend w evs) ->
     module_to env program (device h) = Returned moved ->
     let opened := <[path := File None]> (storage w) in
     let calls := evs ++ [said; EOpen path "wb"; ESave moved path; EClose path] in
     (forall e,
        pathmgr_open env (storage w) path "wb" = Some e ->
        on_end env task w =
          (Raised e, extend w (evs ++ [said; EOpen path "wb"]))) /\
     (forall e,
        pathmgr_open env (storage w) path "wb" = None ->
        jit_save env opened moved path = Some e ->
        on_end env task w = (Raised e, set_storage opened (extend w calls))) /\
     (pathmgr_open env (storage w) path "wb" = None ->
      jit_save env opened moved path = None ->
      on_end env task w =
        (Returned tt,
         set_storage (<[path := File (Some moved)]> (storage w))
           (extend w calls)))) /\
  (forall e,
     use_trace h = true -> truthy shape = true ->
     get_model_dummy_input env model shape key = Raised e ->
     on_end env task w = (Raised e, extend w [EDummyInput shape key])) /\
  (forall program evs e,
     (if use_trace h then torchscript_using_trace env model w
      else torchscript_using_script env model w) =
       (Returned (Some program), extend w evs) ->
     module_to env program (device h) = Raised e ->
     on_end env task w = (Raised e, extend w (evs ++ [said]))).
Proof.
  intros Hrank model h shape key path said.
  subst model h shape key path said.
  rewrite (on_end_primary_steps task w Hrank).
  split; [| split; [| split; [| split]]].
  - intros e input_data Htracing Hshape Hbuilt Htrace.
    unfold export_result, export_calls.
    rewrite Htracing, Hshape, Hbuilt, Htrace. reflexivity.
  - intros e Hscripting Hscript. unfold export_result, export_calls.
    rewrite Hscripting, Hscript. reflexivity.
  - intros program evs moved Hexport Hmoved opened calls. subst opened calls.
    rewrite export_steps in Hexport. injection Hexport as Hresult Hcalls.
    apply app_inv_head in Hcalls. rewrite Hresult, Hcalls.
    unfold persist. cbn. rewrite Hmoved.
    split; [| split].
    + intros e Hopen. rewrite Hopen. worlds. rewrite <- app_assoc. reflexivity.
    + intros e Hopen Hsave. rewrite Hopen, Hsave. worlds.
      rewrite <- app_assoc. reflexivity.
    + intros Hopen Hsave. rewrite Hopen, Hsave. worlds.
      rewrite <- app_assoc. reflexivity.
  - intros e Htracing Hshape Hbuilt. unfold export_result, export_calls.
    rewrite Htracing, Hshape, Hbuilt. reflexivity.
  - intros program evs e Hexport Hmoved.
    rewrite export_steps in Hexport. injection Hexport as Hresult Hcalls.
    apply app_inv_head in Hcalls. rewrite Hresult, Hcalls.
    unfold persist. cbn. rewrite Hmoved.
    worlds. rewrite <- app_assoc. reflexivity.
Qed.

(** ** Repeated calls *)

(** A run of [on_end] that returned went through a successful export, a
    successful move to the device, a successful open and a successful
    save. *)
Lemma on_end_returned task w w1 :
  is_primary env = true ->
  on_end env task w = (Returned tt, w1) ->
  let path := torchscript_name (torchscript_folder (hook w)) in
  let said := ELog INFO (saving_msg (torchscript_folder (hook w))) in
  exists program moved,
    export_result env (base_model task) w = Returned (Some program) /\
    module_to env program (device (hook w)) = Returned moved /\
    pathmgr_open env (storage w) path "wb" = None /\
    jit_save env (<[path := File None]> (storage w)) moved path = None /\
    w1 = set_storage (<[path := File (Some moved)]> (storage w))
           (extend w (export_calls env (base_model task) w ++
                      [said; EOpen path "wb"; ESave moved path; EClose path])).
Proof.
  intros Hrank Hrun path said.
  rewrite (on_end_primary_steps task w Hrank) in Hrun.
  destruct (export_result env (base_model task) w)
    as [[program |] | e]; [| discriminate | discriminate].
  unfold persist in Hrun. cbn in Hrun. fold path said in Hrun.
  destruct (module_to env program (device (hook w))) as [moved | e]
    eqn:Hmoved; [| discriminate].
  exists program, moved.
  destruct (pathmgr_open env (storage w) path "wb") eqn:Hopen;
    [discriminate |].
  destruct (jit_save env _ _ path) eqn:Hsave; [discriminate |].
  injection Hrun as Hw1. subst w1.
  split; [reflexivity |]. split; [exact Hmoved |].
  split; [first [reflexivity | exact Hopen] |].
  split; [first [reflexivity | exact Hsave] |].
  worlds. rewrite <- app_assoc. reflexivity.
Qed.

(** C9: no method writes to the hook object: after [on_start] and after
    [on_end], however they end, the four attributes are what they were,
    and the phase and step callbacks change nothing at all. A second
    [on_end] after one that returned exports again with the same calls
    and writes the same path again; it returns when the storage backend
    accepts the second open and save. *)
Theorem hook_is_stateless task w w1 program :
  let path := torchscript_name (torchscript_folder (hook w)) in
  (hook (on_start env task w).2 = hook w /\
   hook (on_end env task w).2 = hook w /\
   on_phase_start task w = (Returned tt, w) /\
   on_phase_end task w = (Returned tt, w) /\
   on_step task w = (Returned tt, w)) /\
  (is_primary env = true ->
   on_end env task w = (Returned tt, w1) ->
   storage w1 !! path = Some (File (Some program)) ->
   pathmgr_open env (storage w1) path "wb" = None ->
   jit_save env (<[path := File None]> (storage w1)) program path = None ->
   exists w2,
     on_end env task w1 = (Returned tt, w2) /\
     since w1 w2 = since w w1 /\
     storage w2 = storage w1 /\
     hook w2 = hook w /\
     exists evs,
       since w w1 = evs ++ [EOpen path "wb"; ESave program path; EClose path]).
Proof.
  intros path. split.
  - repeat split.
    + unfold on_start. destruct (is_primary env); [| reflexivity]. cbn.
      unfold bind, attr, pathmgr_exists. cbn.
      destruct (bool_decide _); reflexivity.
    + destruct (is_primary env) eqn:Hrank.
      * rewrite (on_end_primary_steps task w Hrank).
        destruct (export_result env (base_model task) w); [| reflexivity].
        rewrite persist_keeps_hook. reflexivity.
      * unfold on_end. rewrite Hrank. reflexivity.
  - intros Hrank Hrun Hfile Hopen Hsave.
    destruct (on_end_returned task w w1 Hrank Hrun)
      as (exported & moved & Hexport & Hto & _ & _ & Hw1).
    fold path in Hw1.
    set (calls := export_calls env (base_model task) w) in *.
    set (said := ELog INFO (saving_msg (torchscript_folder (hook w)))) in *.
    assert (Hmoved : moved = program).
    { rewrite Hw1 in Hfile. cbn in Hfile. rewrite lookup_insert_eq in Hfile.
      congruence. }
    subst moved.
    assert (Ht : training w1 = training w) by (rewrite Hw1; reflexivity).
    assert (Hh : hook w1 = hook w) by (rewrite Hw1; reflexivity).
    assert (Hj : journal w1 =
              journal w ++ calls ++
                [said; EOpen path "wb"; ESave program path; EClose path]).
    { rewrite Hw1. reflexivity. }
    assert (Hs : storage w1 = <[path := File (Some program)]> (storage w)).
    { rewrite Hw1. reflexivity. }
    eexists. split; [| split; [| split; [| split]]].
    + rewrite (on_end_primary_steps task w1 Hrank).
      rewrite (export_result_frame _ w w1 Ht Hh), Hexport.
      rewrite (export_calls_frame _ w w1 Ht Hh). fold calls.
      unfold persist. cbn. rewrite Hh, Hto. fold path said.
      rewrite Hopen, Hsave. reflexivity.
    + cbn. unfold since. cbn. rewrite <- app_assoc, drop_app_length.
      rewrite Hj, drop_app_length. reflexivity.
    + cbn. rewrite Hs, insert_insert_eq. reflexivity.
    + cbn. exact Hh.
    + exists (calls ++ [said]). unfold since.
      rewrite Hj, drop_app_length, <- app_assoc. reflexivity.
Qed.

End Properties.

(** * The properties on the concrete setting *)

(** C3 on a replica whose folder does not even exist. *)
Lemma replica_does_nothing_witness :
  on_start replica_env (mkTask image_model) (demo_world true false) =
    (Returned tt, demo_world true false) /\
  on_end replica_env (mkTask image_model) (demo_world true false) =
    (Returned tt, demo_world true false).
Proof.
  split;
    apply (replica_does_nothing replica_env (mkTask image_model)
             (demo_world true false));
    reflexivity.
Defined.

(** C4 on the primary process, once without the folder and once with it. *)
Lemma on_start_checks_folder_witness :
  on_start primary_env (mkTask image_model) (demo_world true false) =
    (Raised (FileNotFoundError "Torchscript folder '/out' does not exist."),
     mkWorld true true ∅ (demo_hook true) [EExists "/out"]) /\
  on_start primary_env (mkTask image_model) (demo_world true true) =
    (Returned tt,
     mkWorld true true {["/out" := Dir]} (demo_hook true) [EExists "/out"]).
Proof.
  split.
  - apply (on_start_checks_folder primary_env (mkTask image_model)
             (demo_world true false)); reflexivity.
  - apply (on_start_checks_folder primary_env (mkTask image_model)
             (demo_world true true)); [reflexivity |].
    exists Dir. reflexivity.
Defined.

(** C1 at a model without [input_shape]: [on_end] raises. *)
Lemma on_end_without_input_shape_witness :
  on_end primary_env (mkTask shapeless_model) (demo_world true true) =
    (Raised (AttributeError "'NoneType' object has no attribute 'to'"),
     mkWorld true true {["/out" := Dir]} (demo_hook true)
       [ELog WARNING no_input_shape_msg;
        ELog INFO "Saving torchscript to '/out'..."]).
Proof.
  apply (on_end_without_input_shape primary_env (mkTask shapeless_model)
           (demo_world true true)); reflexivity.
Defined.

(** C2 at a model in training mode: the scripter and the tracer are
    called with the training flag still set. *)
Lemma export_keeps_training_mode_witness :
  since (demo_world false true)
    (torchscript_using_script primary_env image_model
       (demo_world false true)).2 = [EScript true false] /\
  since (demo_world true true)
    (torchscript_using_trace primary_env image_model
       (demo_world true true)).2 =
    [EDummyInput (PyTuple [3; 224; 224]%Z) PyNone;
     ETrace true false (PyTuple [3; 224; 224]%Z, PyNone) true].
Proof.
  split.
  - apply (export_keeps_training_mode primary_env image_model
             (demo_world false true)).
  - apply (export_keeps_training_mode primary_env image_model
             (demo_world true true)).
Defined.

(** C5 at a model of shape (3, 224, 224) without [input_key]. *)
Lemma on_end_traces_and_writes_witness :
  on_end primary_env (mkTask image_model) (demo_world true true) =
    (Returned tt,
     mkWorld true true
       (<["/out/torchscript.pt" := File (Some (7, "cpu"))]> {["/out" := Dir]})
       (demo_hook true)
       [EDummyInput (PyTuple [3; 224; 224]%Z) PyNone;
        ETrace true false (PyTuple [3; 224; 224]%Z, PyNone) true;
        ELog INFO "Saving torchscript to '/out'...";
        EOpen "/out/torchscript.pt" "wb";
        ESave (7, "cpu") "/out/torchscript.pt";
        EClose "/out/torchscript.pt"]).
Proof.
  apply (on_end_traces_and_writes primary_env (mkTask image_model)
           (demo_world true true) (PyTuple [3; 224; 224]%Z, PyNone)
           (7, "cuda:0") (7, "cpu")); reflexivity.
Defined.

(** C6 with a scripting hook: the model and the same model stripped of
    its [input_shape] are exported and saved alike. *)
Lemma script_export_ignores_introspection_witness :
  torchscript_using_script primary_env image_model (demo_world false true) =
    (Returned (Some (7, "cuda:0")),
     extend (demo_world false true) [EScript true false]) /\
  save_torchscript primary_env (mkTask shapeless_model) (demo_world false true) =
    save_torchscript primary_env (mkTask image_model) (demo_world false true).
Proof.
  split.
  - apply (script_export_ignores_introspection primary_env
             (mkTask image_model) (demo_world false true) None None
             (7, "cuda:0")); reflexivity.
  - apply (script_export_ignores_introspection primary_env
             (mkTask image_model) (demo_world false true) None None
             (7, "cuda:0")); reflexivity.
Defined.

(** C7 with each collaborator failing in turn. *)
Lemma on_end_propagates_errors_witness :
  on_end tracer_fails_env (mkTask image_model) (demo_world true true) =
    (Raised tracer_error,
     mkWorld true true {["/out" := Dir]} (demo_hook true)
       [EDummyInput (PyTuple [3; 224; 224]%Z) PyNone;
        ETrace true false (PyTuple [3; 224; 224]%Z, PyNone) true]) /\
  on_end scripter_fails_env (mkTask image_model) (demo_world false true) =
    (Raised scripter_error,
     mkWorld true true {["/out" := Dir]} (demo_hook false)
       [EScript true false]) /\
  on_end open_fails_env (mkTask image_model) (demo_world false true) =
    (Raised open_error,
     mkWorld true true {["/out" := Dir]} (demo_hook false)
       [EScript true false;
        ELog INFO "Saving torchscript to '/out'...";
        EOpen "/out/torchscript.pt" "wb"]) /\
  on_end save_fails_env (mkTask image_model) (demo_world false true) =
    (Raised save_error,
     mkWorld true true
       (<["/out/torchscript.pt" := File None]> {["/out" := Dir]})
       (demo_hook false)
       [EScript true false;
        ELog INFO "Saving torchscript to '/out'...";
        EOpen "/out/torchscript.pt" "wb";
        ESave (7, "cpu") "/out/torchscript.pt";
        EClose "/out/torchscript.pt"]) /\
  on_end primary_env (mkTask negative_shape_model) (demo_world true true) =
    (Raised shape_error,
     mkWorld true true {["/out" := Dir]} (demo_hook true)
       [EDummyInput (PyTuple [-1; 3]%Z) PyNone]) /\
  on_end primary_env (mkTask image_model) bogus_device_world =
    (Raised device_error,
     mkWorld true true {["/out" := Dir]} (mkHook "/out" false true "bogus")
       [EScript true false; ELog INFO "Saving torchscript to '/out'..."]).
Proof.
  split; [| split; [| split; [| split; [| split]]]].
  - apply (proj1
             (on_end_propagates_errors tracer_fails_env (mkTask image_model)
                (demo_world true true) eq_refl)
             tracer_error (PyTuple [3; 224; 224]%Z, PyNone));
      reflexivity.
  - apply (proj1 (proj2
             (on_end_propagates_errors scripter_fails_env (mkTask image_model)
                (demo_world false true) eq_refl)));
      reflexivity.
  - apply (proj1 (proj1 (proj2 (proj2
             (on_end_propagates_errors open_fails_env (mkTask image_model)
                (demo_world false true) eq_refl)))
             (7, "cuda:0") [EScript true false] (7, "cpu") eq_refl eq_refl));
      reflexivity.
  - apply (proj1 (proj2 (proj1 (proj2 (proj2
             (on_end_propagates_errors save_fails_env (mkTask image_model)
                (demo_world false true) eq_refl)))
             (7, "cuda:0") [EScript true false] (7, "cpu") eq_refl eq_refl)));
      reflexivity.
  - apply (proj1 (proj2 (proj2 (proj2
             (on_end_propagates_errors primary_env
                (mkTask negative_shape_model) (demo_world true true)
                eq_refl)))));
      reflexivity.
  - apply (proj2 (proj2 (proj2 (proj2
             (on_end_propagates_errors primary_env (mkTask image_model)
                bogus_device_world eq_refl))))
             (7, "cuda:0") [EScript true false]);
      reflexivity.
Defined.

(** C9: a second [on_end] after the run of C5 makes the same six calls and
    leaves the same file. *)
Lemma hook_is_stateless_witness :
  let w := demo_world true true in
  let w1 := (on_end primary_env (mkTask image_model) w).2 in
  exists w2,
    on_end primary_env (mkTask image_model) w1 = (Returned tt, w2) /\
    since w1 w2 = since w w1 /\
    storage w2 = storage w1 /\
    hook w2 = hook w /\
    exists evs,
      since w w1 =
        evs ++ [EOpen "/out/torchscript.pt" "wb";
                ESave (7, "cpu") "/out/torchscript.pt";
                EClose "/out/torchscript.pt"].
Proof.
  intros w w1.
  apply (hook_is_stateless primary_env (mkTask image_model) w w1 (7, "cpu"));
    reflexivity.
Defined.

(** C8 on an integer, on [None], on the empty string and on a full
    argument list. *)
Lemma init_accepts_exactly_strings_witness :
  __init__ (PyInt 3) None None None = Raised (AssertionError folder_type_msg) /\
  __init__ PyNone (Some false) None (Some "cuda") =
    Raised (AssertionError folder_type_msg) /\
  __init__ (PyStr "") None None None = Returned (mkHook "" true true "cpu") /\
  __init__ (PyStr "/out") (Some false) (Some false) (Some "cuda:1") =
    Returned (mkHook "/out" false false "cuda:1").
Proof.
  split; [| split; [| split]].
  - apply (proj1 (proj2 (init_accepts_exactly_strings (PyInt 3) None None None))).
    reflexivity.
  - apply (proj1 (proj2 (init_accepts_exactly_strings PyNone (Some false) None
                           (Some "cuda")))).
    reflexivity.
  - apply (init_accepts_exactly_strings (PyStr "") None None None).
  - apply (init_accepts_exactly_strings (PyStr "/out") (Some false)
             (Some false) (Some "cuda:1")).
Defined.

(** C10 on a model with an empty shape and on one without the attribute:
    the same warning, the same [None], no tracer; on a model the builder
    accepts: a tracer call; on one it refuses: the builder's exception. *)
Lemma trace_helper_needs_truthy_shape_witness :
  torchscript_using_trace primary_env empty_shape_model (demo_world true true) =
    torchscript_using_trace primary_env shapeless_model (demo_world true true) /\
  torchscript_using_trace primary_env shapeless_model (demo_world true true) =
    (Returned None,
     extend (demo_world true true) [ELog WARNING no_input_shape_msg]) /\
  existsb is_trace_call
    (since (demo_world true true)
       (torchscript_using_trace primary_env image_model
          (demo_world true true)).2) = true /\
  torchscript_using_trace primary_env negative_shape_model
    (demo_world true true) =
    (Raised shape_error,
     extend (demo_world true true) [EDummyInput (PyTuple [-1; 3]%Z) PyNone]).
Proof.
  split; [| split; [| split]].
  - apply (proj1 (proj2 (proj2 (proj2
             (trace_helper_needs_truthy_shape primary_env empty_shape_model
                (demo_world true true))))) (PyTuple [])); reflexivity.
  - apply (proj1 (proj2 (proj2
             (trace_helper_needs_truthy_shape primary_env shapeless_model
                (demo_world true true))))); reflexivity.
  - apply (proj1 (proj2
             (trace_helper_needs_truthy_shape primary_env image_model
                (demo_world true true)))).
  - apply (proj2 (proj2 (proj2 (proj2
             (trace_helper_needs_truthy_shape primary_env negative_shape_model
                (demo_world true true)))))); reflexivity.
Defined.

(** C10 as the claim has it fails where the builder raises: the shape
    (-1, 3) counts as true, the builder is called and refuses it, and the
    tracer is never called. *)
Lemma trace_helper_truthy_shape_without_tracer :
  truthy (attr_or_none (input_shape negative_shape_model)) = true /\
  existsb is_dummy_input_call
    (since (demo_world true true)
       (torchscript_using_trace primary_env negative_shape_model
          (demo_world true true)).2) = true /\
  existsb is_trace_call
    (since (demo_world true true)
       (torchscript_using_trace primary_env negative_shape_model
          (demo_world true true)).2) = false /\
  (torchscript_using_trace primary_env negative_shape_model
     (demo_world true true)).1 = Raised shape_error.
Proof. repeat split. Qed.

(** * Further properties of the hook *)

Section Further.

Context {Input Program : Type}.
Variable env : Collaborators Input Program.
Implicit Types (w : World Input Program) (task : Task) (model : Model).

(** ** Paths *)

Lemma append_length (s t : string) :
  String.length (s +:+ t) = String.length s + String.length t.
Proof.
  induction s as [| a s IH]; [reflexivity |].
  change (String a s +:+ t) with (String a (s +:+ t)).
  cbn [String.length]. rewrite IH. reflexivity.
Qed.

Lemma append_inj_r (s1 s2 t : string) : s1 +:+ t = s2 +:+ t -> s1 = s2.
Proof.
  revert s2. induction s1 as [| a s1 IH]; intros [| b s2] H.
  - reflexivity.
  - apply (f_equal String.length) in H. rewrite !append_length in H.
    cbn in H. lia.
  - apply (f_equal String.length) in H. rewrite !append_length in H.
    cbn in H. lia.
  - change (String a (s1 +:+ t) = String b (s2 +:+ t)) in H.
    injection H as Hab H. rewrite Hab, (IH s2 H). reflexivity.
Qed.

Lemma torchscript_name_not_folder folder : torchscript_name folder <> folder.
Proof.
  unfold torchscript_name. intros H.
  apply (f_equal String.length) in H. rewrite !append_length in H.
  cbn in H. lia.
Qed.

(** X9: the file's path is the folder followed by "/torchscript.pt". It
    is never the folder itself, and two folders give the same path only
    when they are the same string. *)
Theorem torchscript_name_separates_folders (folder folder' : string) :
  torchscript_name folder = folder +:+ "/torchscript.pt" /\
  torchscript_name folder <> folder /\
  (torchscript_name folder = torchscript_name folder' -> folder = folder').
Proof.
  split; [reflexivity |]. split; [apply torchscript_name_not_folder |].
  unfold torchscript_name. apply append_inj_r.
Qed.

(** ** Every path through [on_end] *)

Lemma on_end_cases task w :
  on_end env task w =
    if is_primary env then
      match export_result env (base_model task) w with
      | Returned torchscript =>
          persist env torchscript
            (extend w (export_calls env (base_model task) w))
      | Raised e => (Raised e, extend w (export_calls env (base_model task) w))
      end
    else (Returned tt, w).
Proof.
  destruct (is_primary env) eqn:Hrank.
  - apply on_end_primary_steps. exact Hrank.
  - unfold on_end. rewrite Hrank. reflexivity.
Qed.


Lemma since_same w : since w w = [].
Proof. unfold since. apply drop_all. Qed.

(** Splits [on_end] into its paths: replica, export raised, export gave
    [None], the move to the device raised, open raised, save raised, all
    went well. *)
Ltac on_end_paths task w :=
  rewrite (on_end_cases task w);
  destruct (is_primary env) eqn:Hrank; [| cbn];
  [destruct (export_result env (base_model task) w)
     as [[program |] | e] eqn:Hexport;
   [unfold persist; cbn;
    destruct (module_to env program _) as [moved | e] eqn:Hmoved;
    [destruct (pathmgr_open env (storage w) _ "wb") as [e |] eqn:Hopen;
     [| destruct (jit_save env _ _ _) as [e |] eqn:Hsave]; cbn
    | cbn]
   | unfold persist; cbn
   | cbn]
  |].

(** The same on the unfolded views: strategy, shape, builder, tracer or
    scripter, then move, open and save. *)
Ltac export_paths task w :=
  destruct (use_trace (hook w)) eqn:Htracing;
    [destruct (truthy (attr_or_none (input_shape (base_model task))));
     [destruct (get_model_dummy_input env _ _ _);
      [destruct (jit_trace env _ _ _ _ _) |] |]
    |destruct (jit_script env _ _ _)];
  cbn;
  try (destruct (module_to env _ _); cbn;
       [destruct (pathmgr_open env (storage w) _ "wb");
        [| destruct (jit_save env _ _ _)]; cbn |]).

(** X1: however [on_start] and [on_end] end, the model's training flag
    and the autograd switch are afterwards what they were before. *)
Theorem hook_restores_modes task w :
  training (on_end env task w).2 = training w /\
  grad_enabled (on_end env task w).2 = grad_enabled w /\
  training (on_start env task w).2 = training w /\
  grad_enabled (on_start env task w).2 = grad_enabled w.
Proof.
  assert (Hstart : forall w0 : World Input Program,
            training (on_start env task w0).2 = training w0 /\
            grad_enabled (on_start env task w0).2 = grad_enabled w0).
  { intros w0. unfold on_start. destruct (is_primary env); cbn;
      [| split; reflexivity].
    unfold bind, attr, pathmgr_exists. cbn.
    destruct (bool_decide _); split; reflexivity. }
  destruct (Hstart w) as [Ht Hg].
  split; [| split; [| split; [exact Ht | exact Hg]]];
    on_end_paths task w; reflexivity.
Qed.

Lemma on_end_storage_elsewhere task w other :
  other <> torchscript_name (torchscript_folder (hook w)) ->
  storage (on_end env task w).2 !! other = storage w !! other.
Proof.
  intros Hother. on_end_paths task w; try reflexivity;
    apply lookup_insert_ne; congruence.
Qed.

Lemma on_start_keeps_storage task w :
  storage (on_start env task w).2 = storage w.
Proof.
  unfold on_start. destruct (is_primary env); cbn; [| reflexivity].
  unfold bind, attr, pathmgr_exists. cbn.
  destruct (bool_decide _); reflexivity.
Qed.

(** X2: [on_end] changes the storage at one path at most, the file's;
    every other entry, the folder's included, is what it was, and no entry
    that existed is gone afterwards. [on_start] changes nothing. This
    holds on every path, failures included. *)
Theorem on_end_storage_frame task w :
  let folder := torchscript_folder (hook w) in
  let path := torchscript_name folder in
  let w' := (on_end env task w).2 in
  (forall other, other <> path -> storage w' !! other = storage w !! other) /\
  (forall p, is_Some (storage w !! p) -> is_Some (storage w' !! p)) /\
  storage w' !! folder = storage w !! folder /\
  storage (on_start env task w).2 = storage w.
Proof.
  intros folder path w'. subst w'.
  split; [| split; [| split]].
  - intros other Hother. apply on_end_storage_elsewhere. exact Hother.
  - intros p Hp. destruct (decide (p = path)) as [-> | Hne].
    + subst path folder. on_end_paths task w; try exact Hp;
        rewrite lookup_insert_eq; eexists; reflexivity.
    + rewrite on_end_storage_elsewhere; [exact Hp | exact Hne].
  - apply on_end_storage_elsewhere. intros H. symmetry in H.
    exact (torchscript_name_not_folder folder H).
  - apply on_start_keeps_storage.
Qed.

(** X3: on the primary process [on_end] returns without an exception
    only when the export gave a program and that program, moved to the
    configured device, is the content of the file afterwards; the last call
    made is the close of the file. *)
Theorem on_end_returns_after_writing task w w1 :
  is_primary env = true ->
  on_end env task w = (Returned tt, w1) ->
  let h := hook w in
  let path := torchscript_name (torchscript_folder h) in
  exists program moved,
    (if use_trace h then torchscript_using_trace env (base_model task) w
     else torchscript_using_script env (base_model task) w).1 =
      Returned (Some program) /\
    module_to env program (device h) = Returned moved /\
    storage w1 !! path = Some (File (Some moved)) /\
    last (journal w1) = Some (EClose path).
Proof.
  intros Hrank Hrun h path.
  destruct (on_end_returned env task w w1 Hrank Hrun)
    as (program & moved & Hexport & Hmoved & _ & _ & Hw1).
  exists program, moved. split; [| split; [exact Hmoved | split]].
  - subst h. rewrite export_steps. exact Hexport.
  - rewrite Hw1. cbn. apply lookup_insert_eq.
  - rewrite Hw1. cbn. fold h path.
    set (said := ELog INFO (saving_msg (torchscript_folder h))).
    change [said; EOpen path "wb"; ESave moved path; EClose path]
      with ([said; EOpen path "wb"; ESave moved path] ++ [EClose path]).
    rewrite !app_assoc. apply last_snoc.
Qed.


(** ** The folder check across calls *)

Lemma on_start_result task w :
  (on_start env task w).1 =
    if is_primary env then
      if bool_decide (is_Some (storage w !! torchscript_folder (hook w)))
      then Returned tt
      else Raised (FileNotFoundError
                     (missing_folder_msg (torchscript_folder (hook w))))
    else Returned tt.
Proof.
  unfold on_start. destruct (is_primary env); cbn; [| reflexivity].
  unfold bind, attr, pathmgr_exists. cbn.
  destruct (bool_decide _); reflexivity.
Qed.

Lemma on_end_keeps_hook task w : hook (on_end env task w).2 = hook w.
Proof. on_end_paths task w; reflexivity. Qed.

Lemma on_start_keeps_hook task w : hook (on_start env task w).2 = hook w.
Proof.
  unfold on_start. destruct (is_primary env); cbn; [| reflexivity].
  unfold bind, attr, pathmgr_exists. cbn.
  destruct (bool_decide _); reflexivity.
Qed.

(** X5: what [on_start] answers does not change by running [on_end] or
    [on_start] first, whatever they did and however they ended: a folder
    found at the start of a run is still found after the export, and a
    missing one is still missing. *)
Theorem on_start_answer_is_stable task task' w :
  (on_start env task (on_end env task' w).2).1 = (on_start env task w).1 /\
  (on_start env task (on_start env task' w).2).1 = (on_start env task w).1.
Proof.
  rewrite !on_start_result. split.
  - rewrite on_end_keeps_hook, on_end_storage_elsewhere; [reflexivity |].
    intros H. symmetry in H. exact (torchscript_name_not_folder _ H).
  - rewrite on_start_keeps_hook, on_start_keeps_storage. reflexivity.
Qed.

(** ** Which calls [on_end] makes *)

(** X6: on every path [on_end] calls the tracer or the scripter at most
    once and never both, the tracer only with [use_trace] set and the
    scripter only without it; it opens at most one file, saves only after
    having opened, and never asks whether the folder exists. *)
Theorem on_end_call_discipline task w :
  let calls := since w (on_end env task w).2 in
  count_calls is_trace_call calls + count_calls is_script_call calls <= 1 /\
  (existsb is_trace_call calls = true -> use_trace (hook w) = true) /\
  (existsb is_script_call calls = true -> use_trace (hook w) = false) /\
  count_calls is_open_call calls <= 1 /\
  (existsb is_save_call calls = true -> existsb is_open_call calls = true) /\
  existsb is_exists_call calls = false.
Proof.
  intros calls. subst calls.
  rewrite on_end_cases. unfold export_result, export_calls, persist.
  destruct (is_primary env);
    [| cbn; rewrite since_same; cbn; repeat split; intros;
       first [lia | discriminate | reflexivity]].
  export_paths task w.
  all: erewrite since_app by (cbn; rewrite <- ?app_assoc; reflexivity).
  all: unfold count_calls; cbn; repeat split; intros;
    first [lia | discriminate | reflexivity].
Qed.

(** ** What the configuration and the surroundings can change *)

(** X7: with [use_trace] off, [trace_strict] plays no part: [on_end] ends
    the same way, makes the same calls and leaves the same storage for
    either value of it. *)
Theorem script_strategy_ignores_trace_strict task w (b : bool) :
  use_trace (hook w) = false ->
  let h := hook w in
  let w' := set_hook (mkHook (torchscript_folder h) false b (device h)) w in
  (on_end env task w').1 = (on_end env task w).1 /\
  storage (on_end env task w').2 = storage (on_end env task w).2 /\
  journal (on_end env task w').2 = journal (on_end env task w).2.
Proof.
  intros Hscripting h w'. subst h w'.
  rewrite !on_end_cases. unfold export_result, export_calls, persist. cbn.
  rewrite Hscripting.
  destruct (is_primary env); [| repeat split; reflexivity].
  destruct (jit_script env _ _ _); cbn; [| repeat split; reflexivity].
  destruct (module_to env _ _); cbn; [| repeat split; reflexivity].
  destruct (pathmgr_open env (storage w) _ "wb"); cbn;
    [repeat split; reflexivity |].
  destruct (jit_save env _ _ _); repeat split; reflexivity.
Qed.

(** X8: the folder and the device play no part in obtaining the program:
    both export helpers return the same thing after the same calls
    whatever these two attributes hold. The model is traced or scripted
    where it is; the device is used on the result only. *)
Theorem export_ignores_folder_and_device model w (folder dev : string) :
  let h := hook w in
  let w' := set_hook (mkHook folder (use_trace h) (trace_strict h) dev) w in
  (torchscript_using_trace env model w').1 =
    (torchscript_using_trace env model w).1 /\
  since w' (torchscript_using_trace env model w').2 =
    since w (torchscript_using_trace env model w).2 /\
  (torchscript_using_script env model w').1 =
    (torchscript_using_script env model w).1 /\
  since w' (torchscript_using_script env model w').2 =
    since w (torchscript_using_script env model w).2.
Proof.
  intros h w'. subst h w'.
  rewrite !torchscript_using_script_runs. cbn [fst snd].
  rewrite !since_extend.
  destruct (truthy (attr_or_none (input_shape model))) eqn:Hshape.
  - destruct (get_model_dummy_input env model
                (attr_or_none (input_shape model))
                (attr_or_none (input_key model)))
      as [input_data | e] eqn:Hbuilt.
    + rewrite !(torchscript_using_trace_truthy env model _ input_data
                  Hshape Hbuilt).
      cbn [fst snd]. rewrite !since_extend. repeat split; reflexivity.
    + rewrite !(torchscript_using_trace_refused env model _ e Hshape Hbuilt).
      cbn [fst snd]. rewrite !since_extend. repeat split; reflexivity.
  - rewrite !(torchscript_using_trace_falsy env model _ Hshape).
    cbn [fst snd]. rewrite !since_extend. repeat split; reflexivity.
Qed.

(** X11: whether gradient tracking was on or off when [on_end] is called
    makes no difference to how it ends, to the calls it makes or to the
    storage it leaves: the tracer and the scripter always run with it off,
    and the setting found is the setting left. *)
Theorem on_end_ignores_ambient_grad task w (b : bool) :
  let w' := set_grad_enabled b w in
  (on_end env task w').1 = (on_end env task w).1 /\
  storage (on_end env task w').2 = storage (on_end env task w).2 /\
  journal (on_end env task w').2 = journal (on_end env task w).2 /\
  grad_enabled (on_end env task w').2 = b.
Proof.
  intros w'. subst w'.
  rewrite !on_end_cases. unfold export_result, export_calls, persist. cbn.
  destruct (is_primary env); [| repeat split; reflexivity].
  export_paths task w; repeat split; reflexivity.
Qed.


(** ** Constructor and export together *)

(** X10: a hook built from a folder alone, on the primary process and
    with a model whose [input_shape] counts as true, calls the tracer in
    strict mode and stores the program moved to ["cpu"] in
    [<folder>/torchscript.pt], provided every call returns: the builder of
    the dummy input, the tracer, the move to ["cpu"], the open and the
    save. *)
Theorem default_hook_traces_strictly_to_cpu
    task w (folder : string) input_data program moved :
  let model := base_model task in
  let shape := attr_or_none (input_shape model) in
  let key := attr_or_none (input_key model) in
  let path := folder +:+ "/torchscript.pt" in
  __init__ (PyStr folder) None None None = Returned (hook w) ->
  is_primary env = true ->
  truthy shape = true ->
  get_model_dummy_input env model shape key = Returned input_data ->
  jit_trace env (training w) false model input_data true = Returned program ->
  module_to env program "cpu" = Returned moved ->
  pathmgr_open env (storage w) path "wb" = None ->
  jit_save env (<[path := File None]> (storage w)) moved path = None ->
  on_end env task w =
    (Returned tt,
     set_storage (<[path := File (Some moved)]> (storage w))
       (extend w [EDummyInput shape key;
                  ETrace (training w) false input_data true;
                  ELog INFO (saving_msg folder);
                  EOpen path "wb"; ESave moved path; EClose path])).
Proof.
  intros model shape key path
    Hinit Hrank Hshape Hbuilt Htrace Hmoved Hopen Hsave.
  cbn in Hinit. injection Hinit as Hhook.
  rewrite (on_end_primary_steps env task w Hrank).
  unfold export_result, export_calls, persist. cbn. rewrite <- Hhook. cbn.
  fold model shape key. rewrite Hshape, Hbuilt, Htrace. cbn.
  change (torchscript_name folder) with path.
  rewrite Hmoved, Hopen, Hsave.
  unfold extend, set_storage. cbn. rewrite <- Hhook, <- app_assoc.
  reflexivity.
Qed.

End Further.

(** * The further properties on the concrete setting *)

(** X3 after the run of C5. *)
Lemma on_end_returns_after_writing_witness :
  exists program moved : DemoProgram,
    (torchscript_using_trace primary_env image_model (demo_world true true)).1 =
      Returned (Some program) /\
    demo_to program "cpu" = Returned moved /\
    storage (on_end primary_env (mkTask image_model) (demo_world true true)).2
      !! "/out/torchscript.pt" = Some (File (Some moved)) /\
    last (journal
            (on_end primary_env (mkTask image_model) (demo_world true true)).2) =
      Some (EClose "/out/torchscript.pt").
Proof.
  apply (on_end_returns_after_writing primary_env (mkTask image_model)
           (demo_world true true)
           (on_end primary_env (mkTask image_model) (demo_world true true)).2);
    reflexivity.
Defined.


(** X7 on the scripting hook, strict or not. *)
Lemma script_strategy_ignores_trace_strict_witness :
  (on_end primary_env (mkTask image_model)
     (set_hook (mkHook "/out" false false "cpu") (demo_world false true))).1 =
    (on_end primary_env (mkTask image_model) (demo_world false true)).1 /\
  storage
    (on_end primary_env (mkTask image_model)
       (set_hook (mkHook "/out" false false "cpu") (demo_world false true))).2 =
    storage (on_end primary_env (mkTask image_model) (demo_world false true)).2 /\
  journal
    (on_end primary_env (mkTask image_model)
       (set_hook (mkHook "/out" false false "cpu") (demo_world false true))).2 =
    journal (on_end primary_env (mkTask image_model) (demo_world false true)).2.
Proof.
  apply (script_strategy_ignores_trace_strict primary_env (mkTask image_model)
           (demo_world false true) false).
  reflexivity.
Defined.


(** X10 on the hook built from "/out". *)
Lemma default_hook_traces_strictly_to_cpu_witness :
  on_end primary_env (mkTask image_model) (demo_world true true) =
    (Returned tt,
     set_storage
       (<["/out/torchscript.pt" := File (Some (7, "cpu"))]> {["/out" := Dir]})
       (extend (demo_world true true)
          [EDummyInput (PyTuple [3; 224; 224]%Z) PyNone;
           ETrace true false (PyTuple [3; 224; 224]%Z, PyNone) true;
           ELog INFO "Saving torchscript to '/out'...";
           EOpen "/out/torchscript.pt" "wb";
           ESave (7, "cpu") "/out/torchscript.pt";
           EClose "/out/torchscript.pt"])).
Proof.
  apply (default_hook_traces_strictly_to_cpu primary_env (mkTask image_model)
           (demo_world true true) "/out" (PyTuple [3; 224; 224]%Z, PyNone)
           (7, "cuda:0") (7, "cpu")); reflexivity.
Defined.
